(** * news-app: the request / response / render lifecycle of [app.js]

    A shallow embedding of the namespaced version of the widget (the
    objects [http], [httpCall], [render], [preloader] and [events]) and
    the properties of it that the specification states.

    The browser is the environment.  The page is a record holding what the
    script reads and writes: the markup of the content region, the
    loading indicators at the start of the body, the submit button's
    [disabled] flag and the values of the form's fields.  Every call the
    script makes to a collaborator (a DOM mutation, a toast, a console
    line, a request handed to the network) is also appended to a log, so
    that "one insertion" and "no mutation" are statements about that log. *)

From Stdlib Require Import String Ascii List ZArith Bool Arith Lia.
From Stdlib Require Import DecimalString DecimalNat.
Import ListNotations.

Local Open Scope list_scope.
Local Open Scope string_scope.

(** ** JavaScript values *)

Module JS.

(** The values an article field or a handler argument takes here: an absent
    property reads as [undefined]; JSON gives [null], booleans and text. *)
Inductive value : Type :=
| Undefined
| Null
| Bool (b : bool)
| Str (s : string).

(** ToBoolean. *)
Definition truthy (v : value) : bool :=
  match v with
  | Undefined => false
  | Null => false
  | Bool b => b
  | Str s => negb (s =? "")
  end.

(** ToString, as a template literal applies it to [${v}]. *)
Definition to_string (v : value) : string :=
  match v with
  | Undefined => "undefined"
  | Null => "null"
  | Bool true => "true"
  | Bool false => "false"
  | Str s => s
  end.

(** [a || b]. *)
Definition or (a b : value) : value := if truthy a then a else b.

(** A parameter default [p = d]: it applies to [undefined] only. *)
Definition default (d : string) (v : value) : value :=
  match v with
  | Undefined => Str d
  | _ => v
  end.

(** ToString of a non-negative integer number: its decimal digits. *)
Definition number_to_string (n : nat) : string :=
  NilEmpty.string_of_uint (Nat.to_uint n).

End JS.

(** ** Text helpers for the markup literals *)

Definition dq : string := String (ascii_of_nat 34) EmptyString.
Definition nl : string := String (ascii_of_nat 10) EmptyString.

Fixpoint spaces (n : nat) : string :=
  match n with
  | O => EmptyString
  | S k => String " "%char (spaces k)
  end.

(** [name="value"] *)
Definition attr (name value : string) : string :=
  name ++ "=" ++ dq ++ value ++ dq.

(** [s] occurs in [t]. *)
Definition contains (s t : string) : Prop :=
  exists before after, t = before ++ s ++ after.

(** ** Data model *)

Record article : Type := mkArticle {
  urlToImage : JS.value;
  title : JS.value;
  url : JS.value;
  description : JS.value
}.

(** What the shared handler receives as [res]: the request object itself
    on the error path of [get], or the value [JSON.parse] returned, of
    which the handler reads the [articles] property only.  [Json None] is
    a value whose [articles] is absent or [null], so that reading its
    [length] throws; [Json (Some arr)] is a value whose [articles] is an
    array of article objects.  These are the shapes the news service
    documents; a value whose [articles] is a number, a text or an array
    with a [null] element is not among the values of this type. *)
Inductive response : Type :=
| Xhr (status : nat) (responseText : string)
| Json (articles : option (list article)).

Definition articles_of (res : response) : option (list article) :=
  match res with
  | Xhr _ _ => None
  | Json a => a
  end.

(** Calls to the collaborators, in the order the script makes them. *)
Inductive effect : Type :=
| ButtonDisabled (b : bool)              (* render.searchButton.disabled = b *)
| BodyInsert (html : string)             (* document.body.insertAdjacentHTML("afterbegin", html) *)
| ProgressRemove                         (* preloaderEl.remove() *)
| ContentInsert (html : string)          (* newsContent.insertAdjacentHTML("afterbegin", html) *)
| ContentSet (html : string)             (* newsContent.innerHTML = html *)
| Toast (html : string)                  (* M.toast({ html }) *)
| ConsoleLog (msg : string)              (* console.log(msg) *)
| ConsoleLogThrown (url : string)        (* console.log(error) in the catch of get *)
| AutoInit                               (* M.AutoInit() *)
| PreventDefault                         (* e.preventDefault() *)
| XhrSend (url : string).                (* xhr.open("GET", url); xhr.send() *)

(** The page.  [progress] counts the elements of class [progress] the
    script has put at the start of the body and not yet removed; the rest
    of the document is taken to hold no element of that class, so
    [document.querySelector(".progress")] finds the first of them. *)
Record dom : Type := mkDom {
  content : string;            (* newsContent.innerHTML *)
  progress : nat;
  disabled : bool;             (* render.searchButton.disabled *)
  searchCountry : string;      (* render.searchCountry.value *)
  searchCategory : string;     (* render.searchCategory.value *)
  searchText : string;         (* render.searchText.value *)
  log : list effect
}.

Definition emit (e : effect) (d : dom) : dom :=
  mkDom (content d) (progress d) (disabled d)
        (searchCountry d) (searchCategory d) (searchText d) (log d ++ [e])%list.

Definition set_content (s : string) (d : dom) : dom :=
  mkDom s (progress d) (disabled d)
        (searchCountry d) (searchCategory d) (searchText d) (log d).

Definition set_progress (n : nat) (d : dom) : dom :=
  mkDom (content d) n (disabled d)
        (searchCountry d) (searchCategory d) (searchText d) (log d).

Definition set_disabled (b : bool) (d : dom) : dom :=
  emit (ButtonDisabled b)
    (mkDom (content d) (progress d) b
           (searchCountry d) (searchCategory d) (searchText d) (log d)).

(** [newsContent.insertAdjacentHTML("afterbegin", html)]: the markup goes
    in front of what the region holds. *)
Definition content_insert_afterbegin (html : string) (d : dom) : dom :=
  emit (ContentInsert html) (set_content (html ++ content d) d).

(** [M.toast({ html })]. *)
Definition toast (html : string) (d : dom) : dom := emit (Toast html) d.

(** ** preloader *)

Module preloader.

Definition markup : string :=
  "<div class='progress'><div class='indeterminate'></div></div>".

Definition showPreloader (d : dom) : dom :=
  let d := set_disabled true d in
  emit (BodyInsert markup) (set_progress (S (progress d)) d).

Definition removePreloader (d : dom) : dom :=
  let d := set_disabled false d in
  match progress d with
  | O => d
  | S n => emit ProgressRemove (set_progress n d)
  end.

End preloader.

(** ** render *)

Module render.

Definition clearContent (d : dom) : dom :=
  emit (ContentSet "") (set_content "" d).

Definition dummyImageUrl : string := "https://via.placeholder.com/450x337".

Definition template (item : article) (index length : Z) : string :=
  "<div " ++ attr "class" "col s12 m6" ++ ">" ++ nl ++
  spaces 18 ++ "<div " ++ attr "class" "card" ++ ">" ++ nl ++
  spaces 20 ++ "<div " ++ attr "class" "card-image" ++ ">" ++ nl ++
  spaces 22 ++ "<img " ++
    attr "src" (JS.to_string (JS.or (urlToImage item) (JS.Str dummyImageUrl))) ++
    ">" ++ nl ++
  spaces 20 ++ "</div>" ++ nl ++
  spaces 20 ++ "<div " ++ attr "class" "card-content" ++ ">" ++ nl ++
  spaces 20 ++ "<span " ++ attr "class" "card-title" ++ ">" ++
    JS.to_string (title item) ++ "</span>" ++ nl ++
  spaces 22 ++ "<p>" ++ JS.to_string (description item) ++ "</p>" ++ nl ++
  spaces 20 ++ "</div>" ++ nl ++
  spaces 20 ++ "<div " ++ attr "class" "card-action" ++ ">" ++ nl ++
  spaces 22 ++ "<a " ++ attr "href" (JS.to_string (url item)) ++
    ">This is a link</a>" ++ nl ++
  spaces 20 ++ "</div>" ++ nl ++
  spaces 18 ++ "</div>" ++ nl ++
  spaces 16 ++ "</div>".

Definition rowOpen : string := "<div " ++ attr "class" "row" ++ ">".
Definition rowClose : string := "</div>".

(** [index % 2] keeps the sign of [index], as [Z.rem] does; a number is
    truthy when it is not zero. *)
Definition anotherTemplate (item : article) (index length : Z) : string :=
  (if negb (negb (Z.rem index 2 =? 0)%Z) then rowOpen else "") ++
  "<div " ++ attr "class" "col s12 m6" ++ ">" ++ nl ++
  spaces 18 ++ "<div " ++ attr "class" "card" ++ ">" ++ nl ++
  spaces 20 ++ "<div " ++ attr "class" "card-image" ++ ">" ++ nl ++
  spaces 22 ++ "<img " ++
    attr "src" (JS.to_string (JS.or (urlToImage item) (JS.Str dummyImageUrl))) ++
    ">" ++ nl ++
  spaces 20 ++ "</div>" ++ nl ++
  spaces 20 ++ "<div " ++ attr "class" "card-content" ++ ">" ++ nl ++
  spaces 20 ++ "<span " ++ attr "class" "card-title" ++ ">" ++
    JS.to_string (title item) ++ "</span>" ++ nl ++
  spaces 22 ++ "<p>" ++ JS.to_string (description item) ++ "</p>" ++ nl ++
  spaces 20 ++ "</div>" ++ nl ++
  spaces 20 ++ "<div " ++ attr "class" "card-action" ++ ">" ++ nl ++
  spaces 22 ++ "<a " ++ attr "href" (JS.to_string (url item)) ++
    ">This is a link</a>" ++ nl ++
  spaces 20 ++ "</div>" ++ nl ++
  spaces 18 ++ "</div>" ++ nl ++
  spaces 16 ++ "</div>" ++
  (if negb (Z.rem index 2 =? 0)%Z || (index =? length - 1)%Z
   then rowClose else "").

(** The body of [arr.map((item, index, arr) => { ... fragment += el })]:
    [fragment] is the text gathered so far, [index] the position of the
    head of [items] in the array and [length] the array's length. *)
Fixpoint collect (items : list article) (index : nat) (length : Z)
                 (fragment : string) : string :=
  match items with
  | [] => fragment
  | item :: rest =>
      let el := template item (Z.of_nat index) length in
      collect rest (S index) length (fragment ++ el)
  end.

Definition renderContent (arr : list article) (d : dom) : dom :=
  let fragment := collect arr 0 (Z.of_nat (List.length arr)) "" in
  let d := content_insert_afterbegin fragment d in
  preloader.removePreloader d.

End render.

(** ** The browser

    What the script takes from its host and this development does not
    look inside: the JSON parser ([None] when [JSON.parse] throws), the
    URL check of [xhr.open] ([true] when it throws) and the HTML parser,
    seen through the number of element children it gives the content
    region for a markup text. *)
Class Browser : Type := {
  JSON_parse : string -> option response;
  xhr_open_throws : string -> bool;
  children_length : string -> nat
}.

(** ** http *)

Module http.

(** A callback [cb(err, res)].  [None] is an exception that leaves the
    callback; both places that can throw do so before any effect. *)
Definition callback : Type := JS.value -> response -> dom -> option dom.

(** A request that was sent and has not settled. *)
Record request : Type := mkRequest {
  request_url : string;
  request_cb : callback
}.

Record world : Type := mkWorld {
  page : dom;
  pending : list request
}.

Definition on_page (f : dom -> dom) (w : world) : world :=
  mkWorld (f (page w)) (pending w).

(** [get(url, cb)]: the listeners are attached and the request is sent;
    an exception of [xhr.open] is caught and logged. *)
Definition get `{Browser} (url : string) (cb : callback) (w : world) : world :=
  if xhr_open_throws url
  then on_page (emit (ConsoleLogThrown url)) w
  else mkWorld (emit (XhrSend url) (page w))
               (pending w ++ [mkRequest url cb])%list.

(** The listener of [load], for a response of the given status and body. *)
Definition load_listener `{Browser} (cb : callback)
    (status : nat) (responseText : string) (d : dom) : option dom :=
  if negb (status / 100 =? 2)%nat then
    cb (JS.Str ("Error. Status code " ++ JS.number_to_string status))
       (Xhr status responseText) d
  else
    match JSON_parse responseText with
    | None => None
    | Some res => cb JS.Null res d
    end.

(** The listener of [error]; [cb] is in its scope. *)
Definition error_listener (cb : callback) (d : dom) : option dom :=
  Some (emit (ConsoleLog "error") d).

(** How a request ends. *)
Inductive xhr_event : Type :=
| Load (status : nat) (responseText : string)
| NetworkError.

Definition fire `{Browser} (r : request) (ev : xhr_event) (d : dom) : option dom :=
  match ev with
  | Load status responseText =>
      load_listener (request_cb r) status responseText d
  | NetworkError => error_listener (request_cb r) d
  end.

Fixpoint remove_nth {A : Type} (i : nat) (l : list A) : list A :=
  match l, i with
  | [], _ => []
  | _ :: rest, O => rest
  | x :: rest, S j => x :: remove_nth j rest
  end.

(** The [i]-th pending request ends with [ev]: its listener runs and the
    request is gone.  An exception that leaves a listener changes nothing
    on the page. *)
Definition settle `{Browser} (i : nat) (ev : xhr_event) (w : world) : world :=
  match nth_error (pending w) i with
  | None => w
  | Some r =>
      mkWorld (match fire r ev (page w) with
               | Some d => d
               | None => page w
               end)
              (remove_nth i (pending w))
  end.

End http.

(** ** httpCall *)

Module httpCall.

Definition apiKey : string := "".
Definition apiUrl : string := "https://news-api-v2.herokuapp.com".

Definition httpCallback `{Browser} : http.callback := fun err res d =>
  if JS.truthy err then
    let d := preloader.removePreloader d in
    let d := set_disabled false d in
    Some (toast (JS.to_string err) d)
  else
    match articles_of res with
    | None => None                 (* res.articles.length throws *)
    | Some arr =>
        if (List.length arr =? 0)%nat then
          let d := preloader.removePreloader d in
          let d := set_disabled false d in
          Some (toast "No news :(" d)
        else
          let d := if negb (children_length (content d) =? 0)%nat
                   then render.clearContent d else d in
          Some (render.renderContent arr d)
    end.

Definition getTopHeadlines `{Browser} (country category : JS.value)
    (w : http.world) : http.world :=
  let country := JS.default "ru" country in
  let category := JS.default "technology" category in
  let w := http.on_page preloader.showPreloader w in
  http.get (apiUrl ++ "/top-headlines?country=" ++ JS.to_string country ++
            "&category=" ++ JS.to_string category ++ "&apiKey=" ++ apiKey)
           httpCallback w.

Definition getEverything `{Browser} (query : JS.value)
    (w : http.world) : http.world :=
  let w := http.on_page preloader.showPreloader w in
  http.get (apiUrl ++ "/everything?q=" ++ JS.to_string query ++
            "&apiKey=" ++ apiKey)
           httpCallback w.

End httpCall.

(** ** events *)

Module events.

Definition onFormSubmit `{Browser} (w : http.world) : http.world :=
  let w := http.on_page (emit PreventDefault) w in
  let selectCountry := searchCountry (http.page w) in
  let selectCategory := searchCategory (http.page w) in
  let searchVal := searchText (http.page w) in
  if negb (JS.truthy (JS.Str searchVal)) then
    httpCall.getTopHeadlines (JS.Str selectCountry) (JS.Str selectCategory) w
  else
    httpCall.getEverything (JS.Str searchVal) w.

Definition onDomLoad `{Browser} (w : http.world) : http.world :=
  let w := http.on_page (emit AutoInit) w in
  httpCall.getTopHeadlines JS.Undefined JS.Undefined w.

End events.

(** ** Notions the statements use *)

(** The texts of a list, one after the other. *)
Definition join (l : list string) : string := fold_right append "" l.

(** One fragment per article of [arr], in the order of [arr]: the
    article at position [i] gives [template item i (length arr)]. *)
Definition fragments (arr : list article) : list string :=
  map (fun p => render.template (snd p) (Z.of_nat (fst p))
                                (Z.of_nat (List.length arr)))
      (combine (seq 0 (List.length arr)) arr).

(** Does an effect change the content region? *)
Definition mutates_content (e : effect) : bool :=
  match e with
  | ContentInsert _ | ContentSet _ => true
  | _ => false
  end.

Definition content_mutations (l : list effect) : nat :=
  List.length (filter mutates_content l).

(** What [removePreloader] does to the indicators when [n] are present. *)
Definition removal (n : nat) : list effect :=
  match n with
  | O => []
  | S _ => [ProgressRemove]
  end.

(** The number a transport error text carries after its fixed words. *)
Definition status_of_error (err : string) : option nat :=
  option_map Nat.of_uint
    (NilEmpty.uint_of_string (substring 19 (String.length err - 19) err)).

(** The card of [template] up to the value of the image's [src], and from
    there on. *)
Definition card_head : string :=
  "<div " ++ attr "class" "col s12 m6" ++ ">" ++ nl ++
  spaces 18 ++ "<div " ++ attr "class" "card" ++ ">" ++ nl ++
  spaces 20 ++ "<div " ++ attr "class" "card-image" ++ ">" ++ nl ++
  spaces 22 ++ "<img src=" ++ dq.

Definition card_tail (item : article) : string :=
  dq ++ ">" ++ nl ++
  spaces 20 ++ "</div>" ++ nl ++
  spaces 20 ++ "<div " ++ attr "class" "card-content" ++ ">" ++ nl ++
  spaces 20 ++ "<span " ++ attr "class" "card-title" ++ ">" ++
    JS.to_string (title item) ++ "</span>" ++ nl ++
  spaces 22 ++ "<p>" ++ JS.to_string (description item) ++ "</p>" ++ nl ++
  spaces 20 ++ "</div>" ++ nl ++
  spaces 20 ++ "<div " ++ attr "class" "card-action" ++ ">" ++ nl ++
  spaces 22 ++ "<a " ++ attr "href" (JS.to_string (url item)) ++
    ">This is a link</a>" ++ nl ++
  spaces 20 ++ "</div>" ++ nl ++
  spaces 18 ++ "</div>" ++ nl ++
  spaces 16 ++ "</div>".

(** The page after [removePreloader], the second enabling of the button
    and a toast: what both early returns of the handler leave. *)
Definition notified (text : string) (d : dom) : dom :=
  toast text (set_disabled false (preloader.removePreloader d)).

(** [w'] is [w] after a request for [u] was started: the button is
    disabled and one more loading indicator is shown, the content region
    is as before, the request is the last of the pending ones, and
    whatever ends it is handled by the listeners of [get] with
    [httpCallback] as their callback. *)
Definition requested `{Browser} (u : string) (w w' : http.world) : Prop :=
  disabled (http.page w') = true /\
  progress (http.page w') = S (progress (http.page w)) /\
  content (http.page w') = content (http.page w) /\
  log (http.page w') =
    (log (http.page w) ++
     [ButtonDisabled true; BodyInsert preloader.markup; XhrSend u])%list /\
  http.pending w' =
    (http.pending w ++ [http.mkRequest u httpCall.httpCallback])%list /\
  (forall (status : nat) (responseText : string),
      http.page (http.settle (List.length (http.pending w))
                             (http.Load status responseText) w') =
      match http.load_listener httpCall.httpCallback status responseText
                               (http.page w') with
      | Some d => d
      | None => http.page w'
      end).

(** ** Values for the examples *)

Definition news : article :=
  mkArticle JS.Undefined (JS.Str "Title") (JS.Str "https://example.org/a")
            JS.Null.

Definition blank : dom := mkDom "" 0 false "ru" "technology" "" [].

(** The body of a response that holds [news]. *)
Definition news_body : string :=
  "{" ++ dq ++ "articles" ++ dq ++ ":[{" ++
  dq ++ "title" ++ dq ++ ":" ++ dq ++ "Title" ++ dq ++ "," ++
  dq ++ "url" ++ dq ++ ":" ++ dq ++ "https://example.org/a" ++ dq ++ "," ++
  dq ++ "description" ++ dq ++ ":null}]}".

(** A browser for the examples: its parser knows [news_body] and the
    empty object, every URL opens, and a region has a child as soon as its
    markup is not empty. *)
#[local] Instance plain_browser : Browser := {|
  JSON_parse := fun s =>
    if s =? news_body then Some (Json (Some [news]))
    else if s =? "{}" then Some (Json None)
    else None;
  xhr_open_throws := fun _ => false;
  children_length := fun s => if s =? "" then 0 else 1
|}.

(** The page with two requests under way: the form was submitted while
    the document was still loading, then [DOMContentLoaded] fired. *)
Definition two_in_flight : http.world :=
  events.onDomLoad (events.onFormSubmit (http.mkWorld blank [])).

(** ** The first version of the script

    [app.js] opens with an earlier, flat version of the widget.  Its view
    is embedded here: the handler [load], [clearContainer], [render],
    [template] and the two preloader functions, none of which touches the
    submit button.  Its transport stores the parsed value in a global
    variable, which the page record has no place for; it is left out. *)

Module simple.

Definition showPreloader (d : dom) : dom :=
  emit (BodyInsert
          "<div class='progress'><div class='indeterminate'></div></div>")
       (set_progress (S (progress d)) d).

Definition removePreloader (d : dom) : dom :=
  match progress d with
  | O => d
  | S n => emit ProgressRemove (set_progress n d)
  end.

Definition clearContainer (d : dom) : dom :=
  emit (ContentSet "") (set_content "" d).

Definition template (item : article) (index length : Z) : string :=
  let rowOpen := "<div " ++ attr "class" "row" ++ ">" in
  let rowClose := "</div>" in
  (if negb (negb (Z.rem index 2 =? 0)%Z) then rowOpen else "") ++
  "<div " ++ attr "class" "col s12 m6" ++ ">" ++ nl ++
  spaces 14 ++ "<div " ++ attr "class" "card" ++ ">" ++ nl ++
  spaces 16 ++ "<div " ++ attr "class" "card-image" ++ ">" ++ nl ++
  spaces 18 ++ "<img " ++
    attr "src" (JS.to_string (JS.or (urlToImage item) (JS.Str ""))) ++
    ">" ++ nl ++
  spaces 16 ++ "</div>" ++ nl ++
  spaces 16 ++ "<div " ++ attr "class" "card-content" ++ ">" ++ nl ++
  spaces 16 ++ "<span " ++ attr "class" "card-title" ++ ">" ++
    JS.to_string (title item) ++ "</span>" ++ nl ++
  spaces 18 ++ "<p>" ++ JS.to_string (description item) ++ "</p>" ++ nl ++
  spaces 16 ++ "</div>" ++ nl ++
  spaces 16 ++ "<div " ++ attr "class" "card-action" ++ ">" ++ nl ++
  spaces 18 ++ "<a " ++ attr "href" (JS.to_string (url item)) ++
    ">This is a link</a>" ++ nl ++
  spaces 16 ++ "</div>" ++ nl ++
  spaces 14 ++ "</div>" ++ nl ++
  spaces 12 ++ "</div>" ++
  (if negb (Z.rem index 2 =? 0)%Z || (index =? length - 1)%Z
   then rowClose else "").

Fixpoint collect (items : list article) (index : nat) (length : Z)
                 (fragment : string) : string :=
  match items with
  | [] => fragment
  | item :: rest =>
      let el := template item (Z.of_nat index) length in
      collect rest (S index) length (fragment ++ el)
  end.

Definition render (arr : list article) (d : dom) : dom :=
  let d := removePreloader d in
  let fragment := collect arr 0 (Z.of_nat (List.length arr)) "" in
  content_insert_afterbegin fragment d.

Definition load `{Browser} : http.callback := fun err res d =>
  if JS.truthy err then
    Some (toast (JS.to_string err) d)
  else
    match articles_of res with
    | None => None                 (* res.articles.length throws *)
    | Some arr =>
        if (List.length arr =? 0)%nat then
          Some (toast "No news :(" d)
        else
          let d := if negb (children_length (content d) =? 0)%nat
                   then clearContainer d else d in
          Some (render arr d)
    end.

End simple.

(** ** Runs of the page

    The script registers [events.onDomLoad] for [DOMContentLoaded] and
    [events.onFormSubmit] for the form's [submit]; [get] registers the
    listeners of each request.  A run is what the browser and the user
    then do, one event after the other. *)
Inductive action : Type :=
| Edit (country category text : string)   (* the user changes the form's fields *)
| Submit                                  (* the form's submit event *)
| DomContentLoaded
| Settle (i : nat) (ev : http.xhr_event). (* the [i]-th pending request ends *)

Definition set_form (country category text : string) (d : dom) : dom :=
  mkDom (content d) (progress d) (disabled d) country category text (log d).

Definition act `{Browser} (a : action) (w : http.world) : http.world :=
  match a with
  | Edit country category text => http.on_page (set_form country category text) w
  | Submit => events.onFormSubmit w
  | DomContentLoaded => events.onDomLoad w
  | Settle i ev => http.settle i ev w
  end.

Fixpoint run `{Browser} (l : list action) (w : http.world) : http.world :=
  match l with
  | [] => w
  | a :: rest => run rest (act a w)
  end.

(** Does the action start a request? *)
Definition starts_request (a : action) : bool :=
  match a with
  | Submit | DomContentLoaded => true
  | _ => false
  end.

(** A run in which a request is started only while the submit button is
    enabled. *)
Fixpoint gated `{Browser} (l : list action) (w : http.world) : bool :=
  match l with
  | [] => true
  | a :: rest =>
      (if starts_request a then negb (disabled (http.page w)) else true) &&
      gated rest (act a w)
  end.

(** The request reports to the shared handler. *)
Definition handled `{Browser} (r : http.request) : Prop :=
  http.request_cb r = httpCall.httpCallback.

(** The URL the form asks for: the search by text when there is a text,
    the headlines of the chosen country and category otherwise. *)
Definition form_url (d : dom) : string :=
  if searchText d =? "" then
    httpCall.apiUrl ++ "/top-headlines?country=" ++ searchCountry d ++
    "&category=" ++ searchCategory d ++ "&apiKey=" ++ httpCall.apiKey
  else
    httpCall.apiUrl ++ "/everything?q=" ++ searchText d ++
    "&apiKey=" ++ httpCall.apiKey.

(** The fragments of an array under a template function [f]. *)
Definition fragments_with (f : article -> Z -> Z -> string)
    (arr : list article) : list string :=
  map (fun p => f (snd p) (Z.of_nat (fst p)) (Z.of_nat (List.length arr)))
      (combine (seq 0 (List.length arr)) arr).

(** Cards laid out two to a row, each row between its markers; a last
    card without a partner has a row of its own. *)
Fixpoint rows (cards : list string) : string :=
  match cards with
  | [] => ""
  | [c] => render.rowOpen ++ c ++ render.rowClose
  | c1 :: c2 :: rest =>
      render.rowOpen ++ c1 ++ c2 ++ render.rowClose ++ rows rest
  end.

(** The card of the first version's [template], without row markers. *)
Definition simple_card (item : article) : string :=
  "<div " ++ attr "class" "col s12 m6" ++ ">" ++ nl ++
  spaces 14 ++ "<div " ++ attr "class" "card" ++ ">" ++ nl ++
  spaces 16 ++ "<div " ++ attr "class" "card-image" ++ ">" ++ nl ++
  spaces 18 ++ "<img " ++
    attr "src" (JS.to_string (JS.or (urlToImage item) (JS.Str ""))) ++
    ">" ++ nl ++
  spaces 16 ++ "</div>" ++ nl ++
  spaces 16 ++ "<div " ++ attr "class" "card-content" ++ ">" ++ nl ++
  spaces 16 ++ "<span " ++ attr "class" "card-title" ++ ">" ++
    JS.to_string (title item) ++ "</span>" ++ nl ++
  spaces 18 ++ "<p>" ++ JS.to_string (description item) ++ "</p>" ++ nl ++
  spaces 16 ++ "</div>" ++ nl ++
  spaces 16 ++ "<div " ++ attr "class" "card-action" ++ ">" ++ nl ++
  spaces 18 ++ "<a " ++ attr "href" (JS.to_string (url item)) ++
    ">This is a link</a>" ++ nl ++
  spaces 16 ++ "</div>" ++ nl ++
  spaces 14 ++ "</div>" ++ nl ++
  spaces 12 ++ "</div>".

(** A browser whose [xhr.open] refuses every URL. *)
Definition refusing_browser : Browser := {|
  JSON_parse := fun _ => None;
  xhr_open_throws := fun _ => true;
  children_length := fun _ => 0
|}.

(** * Properties *)

(** ** Text *)

Lemma append_assoc (a b c : string) : (a ++ b) ++ c = a ++ b ++ c.
Proof. induction a as [|x a IH]; simpl; [reflexivity | now rewrite IH]. Qed.

Lemma append_empty_r (a : string) : a ++ "" = a.
Proof. induction a as [|x a IH]; simpl; [reflexivity | now rewrite IH]. Qed.

Lemma substring_all (s : string) : substring 0 (String.length s) s = s.
Proof. induction s as [|x s IH]; simpl; [reflexivity | now rewrite IH]. Qed.

Lemma contains_suffix (a s : string) : contains s (a ++ s).
Proof. exists a, "". now rewrite append_empty_r. Qed.

Lemma rem2_even (i : Z) : (Z.rem i 2 =? 0)%Z = Z.even i.
Proof.
  rewrite Zeven_mod.
  destruct (Z.eqb_spec (Z.rem i 2) 0) as [E | E];
    destruct (Z.eqb_spec (i mod 2) 0) as [M | M]; try reflexivity;
    exfalso; apply E || apply M; now apply Z.rem_mod_eq_0.
Qed.

Lemma status_2xx (status : nat) :
  (status / 100 =? 2)%nat = true <-> 200 <= status <= 299.
Proof.
  rewrite Nat.eqb_eq.
  pose proof (Nat.div_mod_eq status 100) as E.
  pose proof (Nat.mod_upper_bound status 100) as U.
  lia.
Qed.

(** ** Page updates *)

Lemma removePreloader_progress (d : dom) :
  progress (preloader.removePreloader d) = Nat.pred (progress d).
Proof. destruct d as [c [|n] b sc sg st l]; reflexivity. Qed.

Lemma removePreloader_disabled (d : dom) :
  disabled (preloader.removePreloader d) = false.
Proof. destruct d as [c [|n] b sc sg st l]; reflexivity. Qed.

Lemma removePreloader_content (d : dom) :
  content (preloader.removePreloader d) = content d.
Proof. destruct d as [c [|n] b sc sg st l]; reflexivity. Qed.

Lemma removePreloader_log (d : dom) :
  log (preloader.removePreloader d) =
  (log d ++ ButtonDisabled false :: removal (progress d))%list.
Proof.
  destruct d as [c [|n] b sc sg st l]; cbn; [reflexivity |].
  now rewrite <- app_assoc.
Qed.

Lemma content_mutations_app (l1 l2 : list effect) :
  content_mutations (l1 ++ l2) = content_mutations l1 + content_mutations l2.
Proof. unfold content_mutations. now rewrite filter_app, length_app. Qed.

Lemma content_mutations_removal (n : nat) : content_mutations (removal n) = 0.
Proof. now destruct n. Qed.

(** ** Rendering *)

Lemma collect_join (items : list article) :
  forall (index : nat) (length : Z) (fragment : string),
    render.collect items index length fragment =
    fragment ++
    join (map (fun p => render.template (snd p) (Z.of_nat (fst p)) length)
              (combine (seq index (List.length items)) items)).
Proof.
  induction items as [|item rest IH]; intros index length fragment; simpl.
  - now rewrite append_empty_r.
  - rewrite IH. now rewrite append_assoc.
Qed.

Lemma collect_fragments (arr : list article) :
  render.collect arr 0 (Z.of_nat (List.length arr)) "" = join (fragments arr).
Proof. now rewrite collect_join. Qed.

Lemma fragments_length (arr : list article) :
  List.length (fragments arr) = List.length arr.
Proof.
  unfold fragments.
  rewrite length_map, length_combine, length_seq. apply Nat.min_id.
Qed.

Lemma nth_error_combine_seq {A : Type} (l : list A) :
  forall (start i : nat) (x : A),
    nth_error l i = Some x ->
    nth_error (combine (seq start (List.length l)) l) i = Some (start + i, x).
Proof.
  induction l as [|y l IH]; intros start i x Hx.
  - destruct i; discriminate.
  - destruct i as [|i]; simpl in *.
    + injection Hx as ->. now rewrite Nat.add_0_r.
    + rewrite (IH _ _ _ Hx). now rewrite Nat.add_succ_r.
Qed.

Lemma fragments_nth (arr : list article) (i : nat) (item : article) :
  nth_error arr i = Some item ->
  nth_error (fragments arr) i =
  Some (render.template item (Z.of_nat i) (Z.of_nat (List.length arr))).
Proof.
  intros Hi. unfold fragments.
  rewrite nth_error_map, (nth_error_combine_seq _ 0 _ _ Hi). reflexivity.
Qed.

Lemma renderContent_unfold (arr : list article) (d : dom) :
  render.renderContent arr d =
  preloader.removePreloader
    (content_insert_afterbegin (join (fragments arr)) d).
Proof. unfold render.renderContent. now rewrite collect_fragments. Qed.

(** C1 (as amended).  [renderContent arr] makes one fragment per article
    of [arr] with [template], in the order of [arr], puts their
    concatenation in front of the content region by one insertion, the
    only change of the region, then enables the button and removes the
    first loading indicator, all of this on every page; when at most one
    indicator was present before the call, none is present after it. *)
Theorem renderContent_one_insertion (arr : list article) (d : dom) :
  List.length (fragments arr) = List.length arr /\
  (forall (i : nat) (item : article),
      nth_error arr i = Some item ->
      nth_error (fragments arr) i =
      Some (render.template item (Z.of_nat i) (Z.of_nat (List.length arr)))) /\
  content (render.renderContent arr d) = join (fragments arr) ++ content d /\
  log (render.renderContent arr d) =
    (log d ++ ContentInsert (join (fragments arr)) ::
              ButtonDisabled false :: removal (progress d))%list /\
  content_mutations (log (render.renderContent arr d)) =
    S (content_mutations (log d)) /\
  disabled (render.renderContent arr d) = false /\
  progress (render.renderContent arr d) = Nat.pred (progress d) /\
  (progress d <= 1 -> progress (render.renderContent arr d) = 0).
Proof.
  split; [apply fragments_length |].
  split; [intros i item; apply fragments_nth |].
  rewrite renderContent_unfold.
  rewrite removePreloader_content, removePreloader_log,
    removePreloader_progress, removePreloader_disabled.
  cbn [content_insert_afterbegin emit set_content content log progress].
  split; [reflexivity |].
  split; [now rewrite <- app_assoc |].
  split.
  - rewrite !content_mutations_app.
    change (ButtonDisabled false :: removal (progress d))
      with ([ButtonDisabled false] ++ removal (progress d))%list.
    rewrite content_mutations_app, content_mutations_removal.
    cbn. lia.
  - split; [reflexivity |]. split; [reflexivity |]. intros Hone. lia.
Qed.

Lemma renderContent_one_insertion_news :
  progress (preloader.showPreloader blank) <= 1 /\
  progress (render.renderContent [news] (preloader.showPreloader blank)) = 0.
Proof.
  assert (H : progress (preloader.showPreloader blank) <= 1) by (cbn; lia).
  split; [exact H |].
  destruct (renderContent_one_insertion [news] (preloader.showPreloader blank))
    as (_ & _ & _ & _ & _ & _ & _ & E).
  exact (E H).
Defined.

(** C1, the claim as stated fails: with two requests under way there are
    two loading indicators, and rendering one article removes the first
    of them only. *)
Lemma renderContent_second_indicator_stays :
  1 <= List.length [news] /\
  progress (http.page two_in_flight) = 2 /\
  progress (render.renderContent [news] (http.page two_in_flight)) = 1.
Proof. repeat split; cbn; lia. Qed.

(** C9.  Rendering the empty array gathers no fragment and inserts the
    empty text, which leaves the content region as it is; after
    [clearContent] the region is therefore empty, whatever it held. *)
Theorem clearContent_renderContent_nil (d : dom) :
  fragments [] = [] /\
  render.collect [] 0 (Z.of_nat (List.length (@nil article))) "" = "" /\
  content (render.renderContent [] d) = content d /\
  content (render.clearContent d) = "" /\
  content (render.renderContent [] (render.clearContent d)) = "".
Proof.
  repeat split; try reflexivity;
    unfold render.renderContent; now rewrite removePreloader_content.
Qed.

(** C6.  For an article whose [urlToImage] is absent, [null], [false] or
    the empty text, the card of [template], the function [renderContent]
    calls, has the placeholder URL, which is not empty, as the source of
    its image. *)
Theorem template_placeholder_image (item : article) (index length : Z) :
  JS.truthy (urlToImage item) = false ->
  render.template item index length =
    card_head ++ render.dummyImageUrl ++ card_tail item /\
  render.dummyImageUrl <> "" /\
  (forall d : dom,
      content (render.renderContent [item] d) =
      (card_head ++ render.dummyImageUrl ++ card_tail item) ++ content d).
Proof.
  intros Hfalsy.
  assert (E : forall i n, render.template item i n =
                          card_head ++ render.dummyImageUrl ++ card_tail item).
  { intros i n. unfold render.template, JS.or. rewrite Hfalsy. reflexivity. }
  split; [apply E |]. split; [discriminate |].
  intros d. unfold render.renderContent.
  rewrite removePreloader_content. cbn [render.collect].
  rewrite E. reflexivity.
Qed.

Lemma template_placeholder_image_news :
  JS.truthy (urlToImage news) = false /\
  render.template news 0 1 = card_head ++ render.dummyImageUrl ++ card_tail news.
Proof.
  split; [reflexivity |].
  apply (template_placeholder_image news 0 1). reflexivity.
Defined.

(** C5.  [anotherTemplate] is the card of [template] with the row-open
    marker in front exactly when the index is even, and the row-close
    marker behind exactly when the index is odd or is [length - 1]; for a
    length of 5 the rows open at 0, 2 and 4 and close at 1, 3 and 4. *)
Theorem anotherTemplate_rows (item : article) :
  (forall index length : Z,
      render.anotherTemplate item index length =
      (if Z.even index then render.rowOpen else "") ++
      render.template item index length ++
      (if Z.odd index || (index =? length - 1)%Z
       then render.rowClose else "")) /\
  (forall index length : Z,
      prefix render.rowOpen (render.anotherTemplate item index length) =
      Z.even index) /\
  map (fun index => render.anotherTemplate item index 5) [0; 1; 2; 3; 4]%Z =
  [ render.rowOpen ++ render.template item 0 5;
    render.template item 1 5 ++ render.rowClose;
    render.rowOpen ++ render.template item 2 5;
    render.template item 3 5 ++ render.rowClose;
    render.rowOpen ++ render.template item 4 5 ++ render.rowClose ].
Proof.
  assert (E : forall index length : Z,
      render.anotherTemplate item index length =
      (if Z.even index then render.rowOpen else "") ++
      render.template item index length ++
      (if Z.odd index || (index =? length - 1)%Z
       then render.rowClose else "")).
  { intros index length.
    unfold render.anotherTemplate, render.template.
    rewrite rem2_even, negb_involutive, Z.negb_even.
    rewrite !append_assoc. reflexivity. }
  split; [exact E |]. split.
  - intros index length. rewrite E.
    destruct (Z.even index); reflexivity.
  - cbn [map]. rewrite !E. cbn [Z.even Z.odd Z.eqb Z.sub Z.add Z.opp
      Z.pos_sub Pos.pred_double orb Pos.eqb].
    now rewrite !append_empty_r.
Qed.

(** ** The transport *)

Lemma status_of_error_text (status : nat) :
  status_of_error ("Error. Status code " ++ JS.number_to_string status) =
  Some status.
Proof.
  unfold status_of_error, JS.number_to_string. cbn.
  rewrite Nat.sub_0_r, substring_all, NilEmpty.usu. cbn.
  now rewrite DecimalNat.Unsigned.of_to.
Qed.

Lemma get_sends `{Browser} (u : string) (cb : http.callback) (w : http.world) :
  xhr_open_throws u = false ->
  http.get u cb w =
  http.mkWorld (emit (XhrSend u) (http.page w))
               (http.pending w ++ [http.mkRequest u cb])%list.
Proof. intros Hopen. unfold http.get. now rewrite Hopen. Qed.

Lemma nth_error_last {A : Type} (l : list A) (x : A) :
  nth_error (l ++ [x]) (List.length l) = Some x.
Proof. induction l as [|y l IH]; [reflexivity | exact IH]. Qed.

(** C2 (as amended).  A request made by [get(url, cb)] that loads with a
    status from 200 to 299 and a body that parses gives the callback
    [null] and the parsed value; when the body does not parse,
    [JSON.parse] throws in the listener and the callback is not called;
    with any other status the callback gets the error text that ends
    with the digits of the status, and the request object. *)
Theorem get_load_delivers `{Browser} (u : string) (cb : http.callback)
    (status : nat) (responseText : string) (w : http.world) (d : dom) :
  (xhr_open_throws u = false ->
   nth_error (http.pending (http.get u cb w)) (List.length (http.pending w)) =
   Some (http.mkRequest u cb)) /\
  (200 <= status <= 299 ->
   forall res : response,
     JSON_parse responseText = Some res ->
     http.fire (http.mkRequest u cb) (http.Load status responseText) d =
     cb JS.Null res d) /\
  (200 <= status <= 299 ->
   JSON_parse responseText = None ->
   http.fire (http.mkRequest u cb) (http.Load status responseText) d = None) /\
  (~ (200 <= status <= 299) ->
   exists err : string,
     http.fire (http.mkRequest u cb) (http.Load status responseText) d =
     cb (JS.Str err) (Xhr status responseText) d /\
     err = "Error. Status code " ++ JS.number_to_string status /\
     JS.truthy (JS.Str err) = true /\
     status_of_error err = Some status).
Proof.
  split; [| split; [| split]].
  - intros Hopen. rewrite (get_sends _ _ _ Hopen). cbn [http.pending].
    apply nth_error_last.
  - intros Hok res Hparse. cbn [http.fire http.request_cb].
    unfold http.load_listener.
    apply status_2xx in Hok. rewrite Hok, Hparse. reflexivity.
  - intros Hok Hparse. cbn [http.fire http.request_cb].
    unfold http.load_listener.
    apply status_2xx in Hok. rewrite Hok, Hparse. reflexivity.
  - intros Hbad. exists ("Error. Status code " ++ JS.number_to_string status).
    cbn [http.fire http.request_cb]. unfold http.load_listener.
    destruct (status / 100 =? 2)%nat eqn:E.
    + apply status_2xx in E. contradiction.
    + repeat split. apply status_of_error_text.
Qed.

Lemma get_load_delivers_404 :
  ~ (200 <= 404 <= 299) /\
  exists err : string,
    http.fire (http.mkRequest "u" httpCall.httpCallback)
              (http.Load 404 "Not Found") blank =
    httpCall.httpCallback (JS.Str err) (Xhr 404 "Not Found") blank /\
    err = "Error. Status code 404".
Proof.
  assert (Hbad : ~ (200 <= 404 <= 299)) by lia.
  split; [exact Hbad |].
  destruct (get_load_delivers "u" httpCall.httpCallback 404 "Not Found"
              (http.mkWorld blank []) blank) as (_ & _ & _ & Herr).
  destruct (Herr Hbad) as (err & Hfire & Htext & _).
  exists err. split; [exact Hfire | exact Htext].
Defined.

(** C2, the claim as stated fails: a response of status 200 whose body
    is not JSON gives the callback nothing, neither a value nor an
    error; the page stays as it was. *)
Lemma get_load_unparsable_body :
  200 <= 200 <= 299 /\
  JSON_parse "<html>" = None /\
  http.fire (http.mkRequest "u" (fun _ _ d => Some (toast "called" d)))
            (http.Load 200 "<html>") blank = None /\
  http.page
    (http.settle 0 (http.Load 200 "<html>")
       (http.mkWorld blank
          [http.mkRequest "u" (fun _ _ d => Some (toast "called" d))])) =
  blank.
Proof. repeat split; lia. Qed.

(** C8.  When a pending request ends with a network error, the page gets
    one console line and nothing else: the indicators, the button and the
    content region stay as they were, the request is gone, and the
    outcome is the same whatever its callback is, so the callback is not
    called. *)
Theorem network_error_only_logged `{Browser}
    (w : http.world) (i : nat) (r : http.request) :
  nth_error (http.pending w) i = Some r ->
  http.page (http.settle i http.NetworkError w) =
    emit (ConsoleLog "error") (http.page w) /\
  http.pending (http.settle i http.NetworkError w) =
    http.remove_nth i (http.pending w) /\
  (forall cb : http.callback,
      http.fire (http.mkRequest (http.request_url r) cb)
                http.NetworkError (http.page w) =
      Some (emit (ConsoleLog "error") (http.page w))) /\
  log (http.page (http.settle i http.NetworkError w)) =
    (log (http.page w) ++ [ConsoleLog "error"])%list /\
  progress (http.page (http.settle i http.NetworkError w)) =
    progress (http.page w) /\
  disabled (http.page (http.settle i http.NetworkError w)) =
    disabled (http.page w) /\
  content (http.page (http.settle i http.NetworkError w)) =
    content (http.page w).
Proof.
  intros Hr. unfold http.settle. rewrite Hr. cbn. repeat split.
Qed.

Lemma network_error_only_logged_two_in_flight :
  nth_error (http.pending two_in_flight) 0 =
    Some (http.mkRequest
            "https://news-api-v2.herokuapp.com/top-headlines?country=ru&category=technology&apiKey="
            httpCall.httpCallback) /\
  progress (http.page (http.settle 0 http.NetworkError two_in_flight)) = 2 /\
  disabled (http.page (http.settle 0 http.NetworkError two_in_flight)) = true.
Proof.
  assert (Hr : nth_error (http.pending two_in_flight) 0 =
    Some (http.mkRequest
            "https://news-api-v2.herokuapp.com/top-headlines?country=ru&category=technology&apiKey="
            httpCall.httpCallback)) by reflexivity.
  split; [exact Hr |].
  destruct (network_error_only_logged two_in_flight 0 _ Hr)
    as (_ & _ & _ & _ & Hp & Hd & _).
  split; [rewrite Hp | rewrite Hd]; reflexivity.
Defined.

(** ** The shared response handler *)

Lemma notified_facts (text : string) (d : dom) :
  progress (notified text d) = Nat.pred (progress d) /\
  disabled (notified text d) = false /\
  content (notified text d) = content d /\
  log (notified text d) =
    (log d ++ ButtonDisabled false :: removal (progress d) ++
              [ButtonDisabled false; Toast text])%list /\
  content_mutations (log (notified text d)) = content_mutations (log d).
Proof.
  unfold notified.
  cbn [toast set_disabled emit progress disabled content log].
  rewrite removePreloader_progress, removePreloader_content, removePreloader_log.
  repeat split.
  - rewrite <- !app_assoc. reflexivity.
  - rewrite !content_mutations_app.
    change (ButtonDisabled false :: removal (progress d))
      with ([ButtonDisabled false] ++ removal (progress d))%list.
    rewrite content_mutations_app, content_mutations_removal. cbn. lia.
Qed.

Lemma httpCallback_error_path `{Browser} (err : JS.value) (res : response) (d : dom) :
  JS.truthy err = true ->
  httpCall.httpCallback err res d = Some (notified (JS.to_string err) d).
Proof. intros Herr. unfold httpCall.httpCallback. now rewrite Herr. Qed.

Lemma httpCallback_empty_path `{Browser} (err : JS.value) (res : response) (d : dom) :
  JS.truthy err = false ->
  articles_of res = Some [] ->
  httpCall.httpCallback err res d = Some (notified "No news :(" d).
Proof.
  intros Herr Hres. unfold httpCall.httpCallback. now rewrite Herr, Hres.
Qed.

Lemma httpCallback_render_path `{Browser} (err : JS.value) (res : response)
    (item : article) (rest : list article) (d : dom) :
  JS.truthy err = false ->
  articles_of res = Some (item :: rest) ->
  httpCall.httpCallback err res d =
  Some (render.renderContent (item :: rest)
          (if negb (children_length (content d) =? 0)%nat
           then render.clearContent d else d)).
Proof.
  intros Herr Hres. unfold httpCall.httpCallback. now rewrite Herr, Hres.
Qed.

(** C3 (as amended).  Called with a truthy error, the handler removes
    the first loading indicator, so that none is present when at most one
    was, leaves the button enabled, shows the error text as a toast and
    returns without touching the content region; for a response of a
    status outside 200..299, whose error text the transport builds, that
    text contains the digits of the status. *)
Theorem httpCallback_error `{Browser} (d : dom) :
  (forall (err : JS.value) (res : response),
      JS.truthy err = true ->
      exists d' : dom,
        httpCall.httpCallback err res d = Some d' /\
        progress d' = Nat.pred (progress d) /\
        (progress d <= 1 -> progress d' = 0) /\
        disabled d' = false /\
        content d' = content d /\
        log d' =
          (log d ++ ButtonDisabled false :: removal (progress d) ++
                    [ButtonDisabled false; Toast (JS.to_string err)])%list /\
        content_mutations (log d') = content_mutations (log d)) /\
  (forall (status : nat) (responseText : string),
      ~ (200 <= status <= 299) ->
      exists (d' : dom) (text : string),
        http.load_listener httpCall.httpCallback status responseText d =
          Some d' /\
        log d' =
          (log d ++ ButtonDisabled false :: removal (progress d) ++
                    [ButtonDisabled false; Toast text])%list /\
        contains (JS.number_to_string status) text /\
        progress d' = Nat.pred (progress d) /\
        (progress d <= 1 -> progress d' = 0) /\
        disabled d' = false /\
        content d' = content d).
Proof.
  split.
  - intros err res Herr. exists (notified (JS.to_string err) d).
    split; [now apply httpCallback_error_path |].
    destruct (notified_facts (JS.to_string err) d)
      as (Hp & Hd & Hc & Hl & Hm).
    split; [exact Hp |]. split; [intros Hone; lia |].
    split; [exact Hd |]. split; [exact Hc |]. split; [exact Hl | exact Hm].
  - intros status responseText Hbad.
    exists (notified ("Error. Status code " ++ JS.number_to_string status) d),
           ("Error. Status code " ++ JS.number_to_string status).
    destruct (notified_facts
                ("Error. Status code " ++ JS.number_to_string status) d)
      as (Hp & Hd & Hc & Hl & _).
    split.
    { unfold http.load_listener.
      destruct (status / 100 =? 2)%nat eqn:E.
      - apply status_2xx in E. contradiction.
      - cbn [negb]. now apply httpCallback_error_path. }
    split; [exact Hl |]. split; [apply contains_suffix |].
    split; [exact Hp |]. split; [intros Hone; lia |].
    split; [exact Hd | exact Hc].
Qed.

Lemma httpCallback_error_500 :
  ~ (200 <= 500 <= 299) /\
  exists (d' : dom) (text : string),
    http.load_listener httpCall.httpCallback 500 ""
      (preloader.showPreloader blank) = Some d' /\
    contains "500" text /\
    In (Toast text) (log d') /\
    progress d' = 0 /\
    disabled d' = false.
Proof.
  assert (Hbad : ~ (200 <= 500 <= 299)) by lia.
  split; [exact Hbad |].
  destruct (httpCallback_error (preloader.showPreloader blank)) as [_ Hstatus].
  destruct (Hstatus 500 "" Hbad)
    as (d' & text & Hrun & Hlog & Hin & _ & Hzero & Hd & _).
  exists d', text. repeat split; try assumption.
  - rewrite Hlog. apply in_or_app. right. cbn. auto.
  - apply Hzero. cbn. lia.
Defined.

(** C3, the claim as stated fails: of two requests under way, the first
    to fail leaves one loading indicator on the page; and an error that
    is not [null] but empty is not taken for an error, no notification is
    shown for it. *)
Lemma httpCallback_error_second_indicator_stays :
  JS.truthy (JS.Str "Error. Status code 500") = true /\
  progress (http.page two_in_flight) = 2 /\
  option_map progress
    (httpCall.httpCallback (JS.Str "Error. Status code 500") (Xhr 500 "")
                           (http.page two_in_flight)) = Some 1 /\
  httpCall.httpCallback (JS.Str "") (Xhr 500 "") (http.page two_in_flight) =
    None.
Proof. vm_compute. repeat split. Qed.

(** C4 (as amended).  Called with no error and a response whose
    [articles] is empty, the handler removes the first loading indicator,
    so that none is present when at most one was, leaves the button
    enabled, shows the toast "No news :(" and returns; the content region
    keeps its text and the log gains no change of it. *)
Theorem httpCallback_no_articles `{Browser}
    (err : JS.value) (res : response) (d : dom) :
  JS.truthy err = false ->
  articles_of res = Some [] ->
  exists d' : dom,
    httpCall.httpCallback err res d = Some d' /\
    progress d' = Nat.pred (progress d) /\
    (progress d <= 1 -> progress d' = 0) /\
    disabled d' = false /\
    content d' = content d /\
    log d' =
      (log d ++ ButtonDisabled false :: removal (progress d) ++
                [ButtonDisabled false; Toast "No news :("])%list /\
    content_mutations (log d') = content_mutations (log d).
Proof.
  intros Herr Hres. exists (notified "No news :(" d).
  split; [now apply httpCallback_empty_path |].
  destruct (notified_facts "No news :(" d) as (Hp & Hd & Hc & Hl & Hm).
  split; [exact Hp |]. split; [intros Hone; lia |].
  split; [exact Hd |]. split; [exact Hc |]. split; [exact Hl | exact Hm].
Qed.

Lemma httpCallback_no_articles_kept :
  JS.truthy JS.Null = false /\
  articles_of (Json (Some [])) = Some [] /\
  exists d' : dom,
    httpCall.httpCallback JS.Null (Json (Some []))
      (preloader.showPreloader (set_content "<p>old</p>" blank)) = Some d' /\
    content d' = "<p>old</p>" /\
    progress d' = 0 /\
    disabled d' = false.
Proof.
  split; [reflexivity |]. split; [reflexivity |].
  destruct (httpCallback_no_articles JS.Null (Json (Some []))
              (preloader.showPreloader (set_content "<p>old</p>" blank))
              eq_refl eq_refl) as (d' & Hrun & _ & Hzero & Hd & Hc & _).
  exists d'. repeat split; try assumption.
  apply Hzero. cbn. lia.
Defined.

(** C4, the claim as stated fails: of two requests under way, the first
    to come back without articles leaves one loading indicator on the
    page. *)
Lemma httpCallback_no_articles_second_indicator_stays :
  articles_of (Json (Some [])) = Some [] /\
  progress (http.page two_in_flight) = 2 /\
  option_map progress
    (httpCall.httpCallback JS.Null (Json (Some []))
                           (http.page two_in_flight)) = Some 1 /\
  option_map disabled
    (httpCall.httpCallback JS.Null (Json (Some []))
                           (http.page two_in_flight)) = Some false.
Proof. vm_compute. repeat split. Qed.

(** C10 (as amended).  Each returning path of the handler (truthy error,
    no article, some articles) ends with the button enabled and the first
    loading indicator removed, so with none present when at most one was
    present before; on the path that renders, this is the work of
    [removePreloader], the last call of [renderContent]. *)
Theorem httpCallback_ends_idle `{Browser}
    (err : JS.value) (res : response) (d : dom) :
  JS.truthy err = true \/ (exists arr, articles_of res = Some arr) ->
  exists d' : dom,
    httpCall.httpCallback err res d = Some d' /\
    disabled d' = false /\
    progress d' = Nat.pred (progress d) /\
    (progress d <= 1 -> progress d' = 0) /\
    (JS.truthy err = false ->
     forall arr, articles_of res = Some arr -> arr <> [] ->
       exists shown : dom,
         d' = render.renderContent arr shown /\
         render.renderContent arr shown =
           preloader.removePreloader
             (content_insert_afterbegin (join (fragments arr)) shown)).
Proof.
  intros Hpath.
  destruct (JS.truthy err) eqn:Herr.
  - exists (notified (JS.to_string err) d).
    destruct (notified_facts (JS.to_string err) d) as (Hp & Hd & _).
    split; [now apply httpCallback_error_path |].
    split; [exact Hd |]. split; [exact Hp |].
    split; [intros Hone; lia | discriminate].
  - destruct Hpath as [Habs | [arr Hres]]; [discriminate |].
    destruct arr as [|item rest].
    + exists (notified "No news :(" d).
      destruct (notified_facts "No news :(" d) as (Hp & Hd & _).
      split; [now apply httpCallback_empty_path |].
      split; [exact Hd |]. split; [exact Hp |].
      split; [intros Hone; lia |].
      intros _ arr Harr Hne. rewrite Hres in Harr.
      injection Harr as <-. contradiction.
    + rewrite (httpCallback_render_path _ _ _ _ _ Herr Hres).
      set (shown := if negb (children_length (content d) =? 0)%nat
                    then render.clearContent d else d).
      assert (Hshown : progress shown = progress d)
        by (unfold shown; destruct (negb _); reflexivity).
      assert (Hp : progress (render.renderContent (item :: rest) shown) =
                   Nat.pred (progress d)).
      { rewrite renderContent_unfold, removePreloader_progress.
        cbn [content_insert_afterbegin emit set_content progress].
        now rewrite Hshown. }
      assert (Hd : disabled (render.renderContent (item :: rest) shown) = false)
        by (rewrite renderContent_unfold; apply removePreloader_disabled).
      eexists. split; [reflexivity |].
      split; [exact Hd |]. split; [exact Hp |].
      split; [intros Hone; lia |].
      intros _ arr Harr _. rewrite Hres in Harr. injection Harr as <-.
      exists shown. split; [reflexivity | apply renderContent_unfold].
Qed.

Lemma httpCallback_ends_idle_news :
  (JS.truthy JS.Null = true \/
   exists arr, articles_of (Json (Some [news])) = Some arr) /\
  exists d' : dom,
    httpCall.httpCallback JS.Null (Json (Some [news]))
      (preloader.showPreloader blank) = Some d' /\
    disabled d' = false /\
    progress d' = 0.
Proof.
  assert (Hpath : JS.truthy JS.Null = true \/
                  exists arr, articles_of (Json (Some [news])) = Some arr)
    by (right; exists [news]; reflexivity).
  split; [exact Hpath |].
  destruct (httpCallback_ends_idle JS.Null (Json (Some [news]))
              (preloader.showPreloader blank) Hpath)
    as (d' & Hrun & Hd & _ & Hzero & _).
  exists d'. repeat split; try assumption.
  apply Hzero. cbn. lia.
Defined.

(** C10, the claim as stated fails: of two requests under way, the first
    to load with an article leaves the button enabled and one loading
    indicator on the page. *)
Lemma httpCallback_second_indicator_stays :
  progress (http.page two_in_flight) = 2 /\
  httpCall.httpCallback JS.Null (Json (Some [news])) (http.page two_in_flight) =
    Some (http.page (http.settle 0 (http.Load 200 news_body) two_in_flight)) /\
  disabled (http.page (http.settle 0 (http.Load 200 news_body) two_in_flight)) =
    false /\
  progress (http.page (http.settle 0 (http.Load 200 news_body) two_in_flight)) =
    1.
Proof. vm_compute. repeat split. Qed.

(** ** The two requests *)

Lemma get_requested `{Browser} (u : string) (w : http.world) :
  xhr_open_throws u = false ->
  requested u w
    (http.get u httpCall.httpCallback (http.on_page preloader.showPreloader w)).
Proof.
  intros Hopen. rewrite (get_sends _ _ _ Hopen).
  unfold requested. cbn -[preloader.markup].
  repeat split.
  - now rewrite <- !app_assoc.
  - intros status responseText. unfold http.settle.
    cbn [http.pending]. rewrite nth_error_last. reflexivity.
Qed.

(** C7.  [getTopHeadlines(country, category)], with "ru" and
    "technology" standing in for absent arguments, and
    [getEverything(query)] each show the loading state and call [get]
    with the URL templated from the base, the parameters and the key, and
    with the shared handler as callback. *)
Theorem getTopHeadlines_getEverything_request `{Browser}
    (country category query : JS.value) (w : http.world) :
  let top :=
    httpCall.apiUrl ++ "/top-headlines?country=" ++
    JS.to_string (JS.default "ru" country) ++ "&category=" ++
    JS.to_string (JS.default "technology" category) ++ "&apiKey=" ++
    httpCall.apiKey in
  let everything :=
    httpCall.apiUrl ++ "/everything?q=" ++ JS.to_string query ++
    "&apiKey=" ++ httpCall.apiKey in
  let loading := http.on_page preloader.showPreloader w in
  httpCall.getTopHeadlines country category w =
    http.get top httpCall.httpCallback loading /\
  httpCall.getEverything query w =
    http.get everything httpCall.httpCallback loading /\
  (xhr_open_throws top = false ->
   requested top w (httpCall.getTopHeadlines country category w)) /\
  (xhr_open_throws everything = false ->
   requested everything w (httpCall.getEverything query w)) /\
  httpCall.getTopHeadlines JS.Undefined JS.Undefined w =
    http.get
      "https://news-api-v2.herokuapp.com/top-headlines?country=ru&category=technology&apiKey="
      httpCall.httpCallback loading.
Proof.
  cbv zeta.
  split; [reflexivity |]. split; [reflexivity |].
  split; [intros Hopen; now apply get_requested |].
  split; [intros Hopen; now apply get_requested |].
  reflexivity.
Qed.

Lemma getTopHeadlines_getEverything_request_blank :
  requested
    "https://news-api-v2.herokuapp.com/top-headlines?country=us&category=science&apiKey="
    (http.mkWorld blank [])
    (httpCall.getTopHeadlines (JS.Str "us") (JS.Str "science")
                              (http.mkWorld blank [])) /\
  requested
    "https://news-api-v2.herokuapp.com/everything?q=rocq&apiKey="
    (http.mkWorld blank [])
    (httpCall.getEverything (JS.Str "rocq") (http.mkWorld blank [])).
Proof.
  destruct (getTopHeadlines_getEverything_request
              (JS.Str "us") (JS.Str "science") (JS.Str "rocq")
              (http.mkWorld blank [])) as (_ & _ & Htop & Hevery & _).
  split; [apply Htop | apply Hevery]; reflexivity.
Defined.

(** * Further properties of the code *)

(** ** Fragments *)

Lemma join_app (l1 l2 : list string) : join (l1 ++ l2) = join l1 ++ join l2.
Proof.
  induction l1 as [|x l1 IH]; cbn [app join fold_right]; [reflexivity |].
  fold (join (l1 ++ l2)). fold (join l1). now rewrite IH, append_assoc.
Qed.

Lemma map_snd_combine_seq {A B : Type} (g : A -> B) (l : list A) :
  forall k : nat,
    map (fun p => g (snd p)) (combine (seq k (List.length l)) l) = map g l.
Proof.
  induction l as [|x l IH]; intros k; cbn; [reflexivity | now rewrite IH].
Qed.

Lemma fragments_map (arr : list article) :
  fragments arr = map (fun item => render.template item 0 0) arr.
Proof.
  unfold fragments.
  change (fun p : nat * article =>
            render.template (snd p) (Z.of_nat (fst p))
                            (Z.of_nat (List.length arr)))
    with (fun p : nat * article =>
            (fun item => render.template item 0 0) (snd p)).
  apply map_snd_combine_seq.
Qed.

(** X1.  The text [renderContent] inserts for two arrays put end to end
    is the text for the first followed by the text for the second, so
    rendering the whole array shows what rendering its second part and
    then its first part shows. *)
Theorem renderContent_app (a b : list article) (d : dom) :
  join (fragments (a ++ b)) = join (fragments a) ++ join (fragments b) /\
  content (render.renderContent (a ++ b) d) =
  content (render.renderContent a (render.renderContent b d)).
Proof.
  assert (E : join (fragments (a ++ b)) =
              join (fragments a) ++ join (fragments b))
    by now rewrite !fragments_map, map_app, join_app.
  split; [exact E |].
  rewrite !renderContent_unfold, !removePreloader_content.
  cbn [content_insert_afterbegin emit set_content content].
  rewrite removePreloader_content.
  cbn [content_insert_afterbegin emit set_content content].
  now rewrite E, append_assoc.
Qed.

Lemma contains_here (s rest : string) : contains s (s ++ rest).
Proof. now exists "", rest. Qed.

Lemma contains_later (s a t : string) : contains s t -> contains s (a ++ t).
Proof.
  intros (before & after & ->). exists (a ++ before), after.
  now rewrite append_assoc.
Qed.

Ltac find_text target :=
  repeat first [ apply (contains_here target) | apply contains_later ].

(** X2.  A field the article lacks is shown as a word: a [null]
    description gives the paragraph "null", an absent title the title
    "undefined", an absent link the address "undefined". *)
Theorem template_missing_fields (item : article) (index length : Z) :
  (description item = JS.Null ->
   contains "<p>null</p>" (render.template item index length)) /\
  (title item = JS.Undefined ->
   contains ">undefined</span>" (render.template item index length)) /\
  (url item = JS.Undefined ->
   contains ("<a " ++ attr "href" "undefined" ++ ">This is a link</a>")
            (render.template item index length)).
Proof.
  unfold render.template. split; [| split]; intros ->; cbn [JS.to_string].
  - find_text "<p>null</p>".
  - find_text ">undefined</span>".
  - find_text ("<a " ++ attr "href" "undefined" ++ ">This is a link</a>").
Qed.

Lemma template_missing_fields_news :
  description news = JS.Null /\
  contains "<p>null</p>" (render.template news 0 1).
Proof.
  split; [reflexivity |].
  destruct (template_missing_fields news 0 1) as (Hnull & _ & _).
  apply Hnull. reflexivity.
Defined.

(** ** The loading indicator *)

Lemma showPreloader_iter (k : nat) (d : dom) :
  progress (Nat.iter k preloader.showPreloader d) = progress d + k /\
  content (Nat.iter k preloader.showPreloader d) = content d.
Proof.
  induction k as [|k [IHp IHc]]; [cbn; split; [lia | reflexivity] |].
  rewrite Nat.iter_succ.
  {
    change (progress (preloader.showPreloader
                        (Nat.iter k preloader.showPreloader d)))
      with (S (progress (Nat.iter k preloader.showPreloader d))).
    change (content (preloader.showPreloader
                       (Nat.iter k preloader.showPreloader d)))
      with (content (Nat.iter k preloader.showPreloader d)).
    split; [lia | exact IHc]. }
Qed.

Lemma removePreloader_iter (j : nat) (d : dom) :
  progress (Nat.iter j preloader.removePreloader d) = progress d - j /\
  content (Nat.iter j preloader.removePreloader d) = content d.
Proof.
  induction j as [|j [IHp IHc]]; [cbn; split; [lia | reflexivity] |].
  rewrite Nat.iter_succ, removePreloader_progress, removePreloader_content.
  split; [lia | exact IHc].
Qed.

(** X3.  Indicators are counted: after [k] calls of [showPreloader]
    followed by [j] calls of [removePreloader] the page has [k - j] more
    of them than before, and never fewer than none, so a call with no
    indicator present is harmless; the content region is not touched and
    the button is enabled as soon as one removal has run. *)
Theorem preloader_balance (j k : nat) (d : dom) :
  progress (Nat.iter j preloader.removePreloader
              (Nat.iter k preloader.showPreloader d)) =
    progress d + k - j /\
  content (Nat.iter j preloader.removePreloader
             (Nat.iter k preloader.showPreloader d)) = content d /\
  disabled (Nat.iter (S j) preloader.removePreloader
              (Nat.iter k preloader.showPreloader d)) = false.
Proof.
  destruct (removePreloader_iter j (Nat.iter k preloader.showPreloader d))
    as [Hp Hc].
  destruct (showPreloader_iter k d) as [Sp Sc].
  split; [lia |]. split; [congruence |].
  rewrite Nat.iter_succ. apply removePreloader_disabled.
Qed.

(** ** Rows of two cards *)

Lemma append_empty_l (s : string) : "" ++ s = s.
Proof. reflexivity. Qed.

Section Rows.

Variable f : article -> Z -> Z -> string.
Variable card : article -> string.
Hypothesis f_split : forall (item : article) (i n : Z),
  f item i n =
  (if Z.even i then render.rowOpen else "") ++ card item ++
  (if Z.odd i || (i =? n - 1)%Z then render.rowClose else "").

Lemma rows_from (m : nat) :
  forall (items : list article) (k : nat) (n : Z),
    List.length items <= m ->
    Z.even (Z.of_nat k) = true ->
    Z.of_nat (k + List.length items) = n ->
    join (map (fun p => f (snd p) (Z.of_nat (fst p)) n)
              (combine (seq k (List.length items)) items)) =
    rows (map card items).
Proof.
  induction m as [|m IH]; intros items k n Hm Hk Hn.
  - destruct items; [reflexivity | cbn in Hm; lia].
  - assert (Hodd : Z.odd (Z.of_nat k) = false)
      by (rewrite <- Z.negb_even, Hk; reflexivity).
    destruct items as [|a [|b rest]].
    + reflexivity.
    + cbn [List.length seq combine map join fold_right fst snd rows].
      rewrite f_split, Hk, Hodd.
      replace (Z.of_nat k =? n - 1)%Z with true
        by (symmetry; apply Z.eqb_eq; cbn [List.length] in Hn; lia).
      cbn [orb]. now rewrite append_empty_r.
    + cbn [List.length seq combine map join fold_right fst snd rows].
      fold (join (map (fun p => f (snd p) (Z.of_nat (fst p)) n)
                      (combine (seq (S (S k)) (List.length rest)) rest))).
      rewrite (IH rest (S (S k)) n).
      * rewrite !f_split.
        rewrite !Nat2Z.inj_succ, Z.even_succ, Z.odd_succ, Hk, Hodd.
        replace (Z.of_nat k =? n - 1)%Z with false
          by (symmetry; apply Z.eqb_neq; cbn [List.length] in Hn; lia).
        cbn [orb].
        now rewrite ?append_assoc, ?append_empty_r, ?append_empty_l.
      * cbn [List.length] in Hm. lia.
      * now rewrite !Nat2Z.inj_succ, Z.even_succ_succ.
      * cbn [List.length] in Hn. lia.
Qed.

Lemma fragments_with_rows (arr : list article) :
  join (fragments_with f arr) = rows (map card arr).
Proof.
  unfold fragments_with.
  apply (rows_from (List.length arr)); [lia | reflexivity | reflexivity].
Qed.

End Rows.

Lemma anotherTemplate_split (item : article) (index length : Z) :
  render.anotherTemplate item index length =
  (if Z.even index then render.rowOpen else "") ++
  render.template item 0 0 ++
  (if Z.odd index || (index =? length - 1)%Z then render.rowClose else "").
Proof.
  unfold render.anotherTemplate, render.template.
  rewrite rem2_even, negb_involutive, Z.negb_even.
  rewrite !append_assoc. reflexivity.
Qed.

Lemma simple_template_split (item : article) (index length : Z) :
  simple.template item index length =
  (if Z.even index then render.rowOpen else "") ++
  simple_card item ++
  (if Z.odd index || (index =? length - 1)%Z then render.rowClose else "").
Proof.
  unfold simple.template, simple_card. cbv zeta.
  rewrite rem2_even, negb_involutive, Z.negb_even.
  rewrite !append_assoc. reflexivity.
Qed.

Lemma simple_collect_join (items : list article) :
  forall (index : nat) (length : Z) (fragment : string),
    simple.collect items index length fragment =
    fragment ++
    join (map (fun p => simple.template (snd p) (Z.of_nat (fst p)) length)
              (combine (seq index (List.length items)) items)).
Proof.
  induction items as [|item rest IH]; intros index length fragment; simpl.
  - now rewrite append_empty_r.
  - rewrite IH. now rewrite append_assoc.
Qed.

(** X4.  Mapped over an array with its indices, [anotherTemplate] lays the
    cards of [template] out in rows of two: every row is opened and
    closed once, and a last card without a partner has a row of its own. *)
Theorem anotherTemplate_rows_of_two (arr : list article) :
  join (fragments_with render.anotherTemplate arr) =
  rows (fragments arr).
Proof.
  rewrite fragments_map.
  apply fragments_with_rows. apply anotherTemplate_split.
Qed.

(** X5.  The first version's [render] removes the first loading
    indicator, if there is one, and then puts in front of the content
    region its cards in rows of two, by one insertion. *)
Theorem simple_render_rows (arr : list article) (d : dom) :
  content (simple.render arr d) =
    rows (map simple_card arr) ++ content d /\
  progress (simple.render arr d) = Nat.pred (progress d) /\
  disabled (simple.render arr d) = disabled d /\
  log (simple.render arr d) =
    (log d ++ removal (progress d) ++
     [ContentInsert (rows (map simple_card arr))])%list.
Proof.
  unfold simple.render.
  rewrite simple_collect_join, append_empty_l.
  change (join _) with (join (fragments_with simple.template arr)).
  rewrite (fragments_with_rows _ _ simple_template_split).
  destruct d as [c [|n] b sc sg st l];
    cbn [simple.removePreloader content_insert_afterbegin emit set_content
         set_progress content progress disabled log removal Nat.pred app];
    repeat split.
  now rewrite <- app_assoc.
Qed.

(** ** What the handler returns *)

Lemma clearContent_facts (d : dom) :
  progress (render.clearContent d) = progress d /\
  disabled (render.clearContent d) = disabled d.
Proof. split; reflexivity. Qed.

Lemma httpCallback_returns `{Browser} (err : JS.value) (res : response)
    (d d' : dom) :
  httpCall.httpCallback err res d = Some d' ->
  progress d' = Nat.pred (progress d) /\ disabled d' = false.
Proof.
  intros Hrun.
  destruct (JS.truthy err) eqn:Herr.
  - rewrite (httpCallback_error_path _ _ _ Herr) in Hrun.
    injection Hrun as <-.
    destruct (notified_facts (JS.to_string err) d) as (Hp & Hd & _).
    now split.
  - destruct (articles_of res) as [[|item rest]|] eqn:Hres.
    + rewrite (httpCallback_empty_path _ _ _ Herr Hres) in Hrun.
      injection Hrun as <-.
      destruct (notified_facts "No news :(" d) as (Hp & Hd & _).
      now split.
    + rewrite (httpCallback_render_path _ _ _ _ _ Herr Hres) in Hrun.
      injection Hrun as <-.
      rewrite renderContent_unfold, removePreloader_progress,
        removePreloader_disabled.
      split; [| reflexivity].
      cbn [content_insert_afterbegin emit set_content progress].
      now destruct (negb _).
    + unfold httpCall.httpCallback in Hrun.
      rewrite Herr, Hres in Hrun. discriminate.
Qed.

Lemma httpCallback_some `{Browser} (err : JS.value) (res : response) (d : dom) :
  JS.truthy err = true \/ (exists arr, articles_of res = Some arr) ->
  exists d', httpCall.httpCallback err res d = Some d'.
Proof.
  intros Hpath. destruct (JS.truthy err) eqn:Herr.
  - rewrite (httpCallback_error_path _ _ _ Herr). now eexists.
  - destruct Hpath as [Habs | [[|item rest] Hres]]; [discriminate | |].
    + rewrite (httpCallback_empty_path _ _ _ Herr Hres). now eexists.
    + rewrite (httpCallback_render_path _ _ _ _ _ Herr Hres). now eexists.
Qed.

Lemma load_listener_returns `{Browser} (status : nat) (responseText : string)
    (d d' : dom) :
  http.load_listener httpCall.httpCallback status responseText d = Some d' ->
  progress d' = Nat.pred (progress d) /\ disabled d' = false.
Proof.
  unfold http.load_listener.
  destruct (negb _).
  - apply httpCallback_returns.
  - destruct (JSON_parse responseText); [| discriminate].
    apply httpCallback_returns.
Qed.

Lemma load_listener_some `{Browser} (status : nat) (responseText : string)
    (d : dom) :
  ~ (200 <= status <= 299) \/
  (exists res arr,
      JSON_parse responseText = Some res /\ articles_of res = Some arr) ->
  exists d',
    http.load_listener httpCall.httpCallback status responseText d = Some d'.
Proof.
  intros Hcase. unfold http.load_listener.
  destruct (status / 100 =? 2)%nat eqn:E; cbn [negb].
  - destruct Hcase as [Hbad | (res & arr & Hparse & Hres)].
    + apply status_2xx in E. contradiction.
    + rewrite Hparse. apply httpCallback_some. right. now exists arr.
  - apply httpCallback_some. left. reflexivity.
Qed.

(** X6.  With no error and at least one article the handler replaces
    what the content region shows: the region is emptied first when it
    has element children, and then holds the new cards only; a region
    without element children is not emptied, and its text stays behind
    the new cards. *)
Theorem httpCallback_replaces_content `{Browser} (err : JS.value)
    (res : response) (item : article) (rest : list article) (d : dom) :
  JS.truthy err = false ->
  articles_of res = Some (item :: rest) ->
  exists d' : dom,
    httpCall.httpCallback err res d = Some d' /\
    content d' =
      join (fragments (item :: rest)) ++
      (if (children_length (content d) =? 0)%nat then content d else "") /\
    content_mutations (log d') =
      content_mutations (log d) +
      (if (children_length (content d) =? 0)%nat then 1 else 2).
Proof.
  intros Herr Hres.
  rewrite (httpCallback_render_path _ _ _ _ _ Herr Hres).
  eexists. split; [reflexivity |].
  rewrite renderContent_unfold, removePreloader_content, removePreloader_log.
  change (ButtonDisabled false :: removal ?n)
    with ([ButtonDisabled false] ++ removal n)%list.
  destruct (children_length (content d) =? 0)%nat; cbn [negb].
  - cbn [content_insert_afterbegin emit set_content content log progress].
    split; [reflexivity |].
    rewrite !content_mutations_app, content_mutations_removal. cbn. lia.
  - cbn [content_insert_afterbegin render.clearContent emit set_content
           content log progress].
    split; [reflexivity |].
    rewrite !content_mutations_app, content_mutations_removal. cbn. lia.
Qed.

Lemma httpCallback_replaces_content_old :
  JS.truthy JS.Null = false /\
  articles_of (Json (Some [news])) = Some [news] /\
  exists d' : dom,
    httpCall.httpCallback JS.Null (Json (Some [news]))
      (set_content "<p>old</p>" blank) = Some d' /\
    content d' = join (fragments [news]) ++ "".
Proof.
  split; [reflexivity |]. split; [reflexivity |].
  destruct (httpCallback_replaces_content JS.Null (Json (Some [news]))
              news [] (set_content "<p>old</p>" blank) eq_refl eq_refl)
    as (d' & Hrun & Hc & _).
  exists d'. split; [exact Hrun | exact Hc].
Defined.

(** X7.  A response of a status from 200 to 299 whose body does not
    parse, or parses to a value whose [articles] is absent or [null],
    throws inside the listener before any effect: the page stays exactly
    as it was, with its loading indicator and its disabled button, and
    the request is over. *)
Theorem settle_bad_body_unchanged `{Browser} (w : http.world) (i : nat)
    (r : http.request) (status : nat) (responseText : string) :
  nth_error (http.pending w) i = Some r ->
  handled r ->
  200 <= status <= 299 ->
  JSON_parse responseText = None \/
  (exists res, JSON_parse responseText = Some res /\ articles_of res = None) ->
  http.page (http.settle i (http.Load status responseText) w) = http.page w /\
  http.pending (http.settle i (http.Load status responseText) w) =
    http.remove_nth i (http.pending w).
Proof.
  intros Hr Hcb Hok Hbody.
  unfold http.settle. rewrite Hr. cbn [http.page http.pending http.fire].
  split; [| reflexivity].
  rewrite Hcb. unfold http.load_listener.
  apply status_2xx in Hok. rewrite Hok. cbn [negb].
  destruct Hbody as [-> | (res & -> & Hres)]; [reflexivity |].
  unfold httpCall.httpCallback. cbn [JS.truthy]. now rewrite Hres.
Qed.

Lemma settle_bad_body_unchanged_two_in_flight :
  200 <= 200 <= 299 /\
  http.page (http.settle 0 (http.Load 200 "{}") two_in_flight) =
  http.page two_in_flight.
Proof.
  assert (Hok : 200 <= 200 <= 299) by lia.
  split; [exact Hok |].
  apply (settle_bad_body_unchanged two_in_flight 0
           (http.mkRequest
              "https://news-api-v2.herokuapp.com/top-headlines?country=ru&category=technology&apiKey="
              httpCall.httpCallback) 200 "{}" eq_refl eq_refl Hok).
  right. exists (Json None). split; reflexivity.
Defined.

(** X8.  On its error path and on its no-news path the first version's
    handler only shows a toast: the loading indicator put up for the
    request stays on the page, and the content region is not touched. *)
Theorem simple_load_keeps_indicator `{Browser} (err : JS.value)
    (res : response) (d : dom) :
  JS.truthy err = true \/ articles_of res = Some [] ->
  exists (d' : dom) (text : string),
    simple.load err res d = Some d' /\
    log d' = (log d ++ [Toast text])%list /\
    text = (if JS.truthy err then JS.to_string err else "No news :(") /\
    progress d' = progress d /\
    disabled d' = disabled d /\
    content d' = content d.
Proof.
  intros Hpath. unfold simple.load.
  destruct (JS.truthy err).
  - eexists _, _. repeat split.
  - destruct Hpath as [Habs | ->]; [discriminate |].
    eexists _, _. repeat split.
Qed.

Lemma simple_load_keeps_indicator_shown :
  (JS.truthy (JS.Str "Error. Status code 500") = true \/
   articles_of (Xhr 500 "") = Some []) /\
  exists (d' : dom) (text : string),
    simple.load (JS.Str "Error. Status code 500") (Xhr 500 "")
                (simple.showPreloader blank) = Some d' /\
    progress d' = 1.
Proof.
  assert (Hpath : JS.truthy (JS.Str "Error. Status code 500") = true \/
                  articles_of (Xhr 500 "") = Some []) by (left; reflexivity).
  split; [exact Hpath |].
  destruct (simple_load_keeps_indicator (JS.Str "Error. Status code 500")
              (Xhr 500 "") (simple.showPreloader blank) Hpath)
    as (d' & text & Hrun & _ & _ & Hp & _).
  exists d', text. split; [exact Hrun | exact Hp].
Defined.

(** ** The form and the runs *)

Lemma onFormSubmit_unfold `{Browser} (w : http.world) :
  events.onFormSubmit w =
  http.get (form_url (http.page w)) httpCall.httpCallback
    (http.on_page preloader.showPreloader
       (http.on_page (emit PreventDefault) w)).
Proof.
  unfold events.onFormSubmit, form_url.
  cbn [http.on_page http.page emit searchText searchCountry searchCategory
       JS.truthy].
  destruct (searchText (http.page w) =? ""); reflexivity.
Qed.

Lemma onDomLoad_unfold `{Browser} (w : http.world) :
  events.onDomLoad w =
  http.get
    "https://news-api-v2.herokuapp.com/top-headlines?country=ru&category=technology&apiKey="
    httpCall.httpCallback
    (http.on_page preloader.showPreloader (http.on_page (emit AutoInit) w)).
Proof. reflexivity. Qed.

Lemma get_loading_shape `{Browser} (u : string) (e : effect) (w : http.world) :
  let w' := http.get u httpCall.httpCallback
              (http.on_page preloader.showPreloader
                 (http.on_page (emit e) w)) in
  progress (http.page w') = S (progress (http.page w)) /\
  disabled (http.page w') = true /\
  content (http.page w') = content (http.page w) /\
  (http.pending w' = http.pending w \/
   http.pending w' =
     (http.pending w ++ [http.mkRequest u httpCall.httpCallback])%list).
Proof.
  unfold http.get. destruct (xhr_open_throws u); cbn; auto.
Qed.

Lemma remove_nth_last {A : Type} (l : list A) (x : A) :
  http.remove_nth (List.length l) (l ++ [x]) = l.
Proof. induction l as [|y l IH]; cbn; [reflexivity | now rewrite IH]. Qed.

Lemma remove_nth_length {A : Type} (l : list A) :
  forall (i : nat) (x : A),
    nth_error l i = Some x ->
    S (List.length (http.remove_nth i l)) = List.length l.
Proof.
  induction l as [|y l IH]; intros [|i] x Hx; try discriminate.
  - reflexivity.
  - cbn in *. now rewrite (IH _ _ Hx).
Qed.

Lemma remove_nth_Forall {A : Type} (P : A -> Prop) (l : list A) :
  forall i : nat, Forall P l -> Forall P (http.remove_nth i l).
Proof.
  induction l as [|y l IH]; intros [|i] Hall; cbn; try assumption.
  - now inversion Hall.
  - inversion Hall; subst. constructor; [assumption | now apply IH].
Qed.

(** X9.  Submitting the form asks for the search by text when the text
    field is not empty, and for the headlines of the chosen country and
    category otherwise; the field values go into the URL as they are,
    the country and category are left out of a search by text, and the
    defaults of [getTopHeadlines] never apply, also to an empty choice. *)
Theorem onFormSubmit_request `{Browser} (w : http.world) :
  xhr_open_throws (form_url (http.page w)) = false ->
  http.pending (events.onFormSubmit w) =
    (http.pending w ++
     [http.mkRequest (form_url (http.page w)) httpCall.httpCallback])%list /\
  log (http.page (events.onFormSubmit w)) =
    (log (http.page w) ++
     [PreventDefault; ButtonDisabled true; BodyInsert preloader.markup;
      XhrSend (form_url (http.page w))])%list /\
  (searchText (http.page w) <> "" ->
   form_url (http.page w) =
   "https://news-api-v2.herokuapp.com/everything?q=" ++
   searchText (http.page w) ++ "&apiKey=") /\
  (searchText (http.page w) = "" ->
   form_url (http.page w) =
   "https://news-api-v2.herokuapp.com/top-headlines?country=" ++
   searchCountry (http.page w) ++ "&category=" ++
   searchCategory (http.page w) ++ "&apiKey=").
Proof.
  intros Hopen. rewrite onFormSubmit_unfold, (get_sends _ _ _ Hopen).
  cbn -[preloader.markup form_url].
  split; [reflexivity |]. split; [now rewrite <- !app_assoc |].
  unfold form_url. split.
  - intros Htext. apply String.eqb_neq in Htext. rewrite Htext. reflexivity.
  - intros ->. reflexivity.
Qed.

Lemma onFormSubmit_request_text :
  xhr_open_throws
    (form_url (set_form "us" "science" "rocq & coq" blank)) = false /\
  http.pending
    (events.onFormSubmit
       (http.mkWorld (set_form "us" "science" "rocq & coq" blank) [])) =
  [http.mkRequest
     "https://news-api-v2.herokuapp.com/everything?q=rocq & coq&apiKey="
     httpCall.httpCallback].
Proof.
  assert (Hopen : xhr_open_throws
            (form_url (set_form "us" "science" "rocq & coq" blank)) = false)
    by reflexivity.
  split; [exact Hopen |].
  destruct (onFormSubmit_request
              (http.mkWorld (set_form "us" "science" "rocq & coq" blank) [])
              Hopen) as (Hpending & _).
  exact Hpending.
Defined.

(** X10.  When [xhr.open] throws on the URL of the form, submitting
    still disables the button and shows a loading indicator, but no
    request is pending: only the caught exception is logged, and nothing
    is left that could end the loading state. *)
Theorem onFormSubmit_open_throws `{Browser} (w : http.world) :
  xhr_open_throws (form_url (http.page w)) = true ->
  http.pending (events.onFormSubmit w) = http.pending w /\
  progress (http.page (events.onFormSubmit w)) = S (progress (http.page w)) /\
  disabled (http.page (events.onFormSubmit w)) = true /\
  log (http.page (events.onFormSubmit w)) =
    (log (http.page w) ++
     [PreventDefault; ButtonDisabled true; BodyInsert preloader.markup;
      ConsoleLogThrown (form_url (http.page w))])%list.
Proof.
  intros Hthrows. rewrite onFormSubmit_unfold. unfold http.get.
  rewrite Hthrows. cbn -[preloader.markup form_url].
  repeat split. now rewrite <- !app_assoc.
Qed.

(** X11.  A search and its answer undo each other on the loading state:
    after the form is submitted and the request it sent loads, with any
    status outside 200..299 or with a body that parses to a value whose
    [articles] is an array of article objects, the page has as many
    loading indicators as before the submit, the button is enabled and
    the pending requests are those of before. *)
Theorem submit_then_load `{Browser} (w : http.world)
    (status : nat) (responseText : string) :
  xhr_open_throws (form_url (http.page w)) = false ->
  ~ (200 <= status <= 299) \/
  (exists res arr,
      JSON_parse responseText = Some res /\ articles_of res = Some arr) ->
  progress (http.page
              (http.settle (List.length (http.pending w))
                           (http.Load status responseText)
                           (events.onFormSubmit w))) =
    progress (http.page w) /\
  disabled (http.page
              (http.settle (List.length (http.pending w))
                           (http.Load status responseText)
                           (events.onFormSubmit w))) = false /\
  http.pending (http.settle (List.length (http.pending w))
                            (http.Load status responseText)
                            (events.onFormSubmit w)) = http.pending w.
Proof.
  intros Hopen Hcase.
  rewrite onFormSubmit_unfold, (get_sends _ _ _ Hopen).
  unfold http.settle. cbn [http.pending http.page http.on_page].
  rewrite nth_error_last, remove_nth_last.
  cbn [http.fire http.request_cb http.page http.pending].
  destruct (load_listener_some status responseText
              (emit (XhrSend (form_url (http.page w)))
                 (preloader.showPreloader
                    (emit PreventDefault (http.page w)))) Hcase)
    as [d' Hrun].
  rewrite Hrun.
  destruct (load_listener_returns _ _ _ _ Hrun) as [Hp Hd].
  repeat split; [| exact Hd]. rewrite Hp. reflexivity.
Qed.

Lemma submit_then_load_404 :
  xhr_open_throws (form_url blank) = false /\
  progress (http.page
              (http.settle 0 (http.Load 404 "")
                 (events.onFormSubmit (http.mkWorld blank [])))) = 0 /\
  disabled (http.page
              (http.settle 0 (http.Load 404 "")
                 (events.onFormSubmit (http.mkWorld blank [])))) = false.
Proof.
  assert (Hopen : xhr_open_throws (form_url blank) = false) by reflexivity.
  split; [exact Hopen |].
  destruct (submit_then_load (http.mkWorld blank []) 404 "" Hopen)
    as (Hp & Hd & _); [left; lia |].
  split; [exact Hp | exact Hd].
Defined.

Lemma onFormSubmit_open_throws_blank :
  @xhr_open_throws refusing_browser (form_url blank) = true /\
  http.pending
    (@events.onFormSubmit refusing_browser (http.mkWorld blank [])) = [] /\
  disabled
    (http.page
       (@events.onFormSubmit refusing_browser (http.mkWorld blank []))) = true.
Proof.
  assert (Hthrows : @xhr_open_throws refusing_browser (form_url blank) = true)
    by reflexivity.
  split; [exact Hthrows |].
  destruct (@onFormSubmit_open_throws refusing_browser
              (http.mkWorld blank []) Hthrows) as (Hpending & _ & Hd & _).
  split; [exact Hpending | exact Hd].
Defined.

(** What one action does to the indicators, the button and the pending
    requests. *)
Lemma act_effect `{Browser} (a : action) (w : http.world) :
  Forall handled (http.pending w) ->
  Forall handled (http.pending (act a w)) /\
  match a with
  | Edit _ _ _ =>
      progress (http.page (act a w)) = progress (http.page w) /\
      disabled (http.page (act a w)) = disabled (http.page w) /\
      http.pending (act a w) = http.pending w
  | Submit | DomContentLoaded =>
      progress (http.page (act a w)) = S (progress (http.page w)) /\
      disabled (http.page (act a w)) = true /\
      List.length (http.pending (act a w)) <= S (List.length (http.pending w))
  | Settle i _ =>
      (List.length (http.pending w) <= i -> act a w = w) /\
      (i < List.length (http.pending w) ->
       S (List.length (http.pending (act a w))) =
         List.length (http.pending w) /\
       ((progress (http.page (act a w)) = progress (http.page w) /\
         disabled (http.page (act a w)) = disabled (http.page w)) \/
        (progress (http.page (act a w)) = Nat.pred (progress (http.page w)) /\
         disabled (http.page (act a w)) = false)))
  end.
Proof.
  intros Hall.
  assert (Hstart : forall (u : string) (e : effect),
    let w' := http.get u httpCall.httpCallback
                (http.on_page preloader.showPreloader
                   (http.on_page (emit e) w)) in
    Forall handled (http.pending w') /\
    progress (http.page w') = S (progress (http.page w)) /\
    disabled (http.page w') = true /\
    List.length (http.pending w') <= S (List.length (http.pending w))).
  { intros u e w'.
    destruct (get_loading_shape u e w) as (Hp & Hd & _ & [Hq | Hq]);
      fold w' in Hp, Hd, Hq; rewrite Hq.
    - repeat split; auto.
    - repeat split; auto.
      + apply Forall_app. split; [exact Hall |].
        constructor; [reflexivity | constructor].
      + rewrite length_app. cbn. lia. }
  destruct a as [c g t | | | i ev]; cbn [act].
  - split; [exact Hall | repeat split].
  - rewrite onFormSubmit_unfold.
    destruct (Hstart (form_url (http.page w)) PreventDefault) as (? & ? & ? & ?).
    auto.
  - rewrite onDomLoad_unfold.
    destruct (Hstart
      "https://news-api-v2.herokuapp.com/top-headlines?country=ru&category=technology&apiKey="
      AutoInit) as (? & ? & ? & ?).
    auto.
  - unfold http.settle.
    destruct (nth_error (http.pending w) i) as [r|] eqn:Hr.
    + cbn [http.page http.pending].
      split; [now apply remove_nth_Forall |].
      split.
      * intros Hge. apply nth_error_None in Hge. congruence.
      * intros _. split; [exact (remove_nth_length _ _ _ Hr) |].
        assert (Hcb : handled r).
        { apply nth_error_In in Hr.
          rewrite Forall_forall in Hall. now apply Hall. }
        destruct ev as [status responseText |]; cbn [http.fire].
        -- rewrite Hcb.
           destruct (http.load_listener httpCall.httpCallback status
                       responseText (http.page w)) as [d'|] eqn:Hrun.
           ++ right. exact (load_listener_returns _ _ _ _ Hrun).
           ++ left. split; reflexivity.
        -- left. split; reflexivity.
    + split; [exact Hall |]. split; [reflexivity |].
      intros Hlt. apply nth_error_None in Hr. lia.
Qed.

(** X12.  Whatever the browser and the user do, the page does not hide
    the waiting: there are never fewer loading indicators than pending
    requests, and while the submit button is disabled at least one
    indicator is shown. *)
Theorem run_shows_waiting `{Browser} (l : list action) :
  forall w : http.world,
    Forall handled (http.pending w) ->
    List.length (http.pending w) <= progress (http.page w) ->
    (disabled (http.page w) = true -> 1 <= progress (http.page w)) ->
    Forall handled (http.pending (run l w)) /\
    List.length (http.pending (run l w)) <= progress (http.page (run l w)) /\
    (disabled (http.page (run l w)) = true ->
     1 <= progress (http.page (run l w))).
Proof.
  induction l as [|a l IH]; intros w Hall Hle Hdis; cbn [run].
  - auto.
  - destruct (act_effect a w Hall) as [Hall' Heff].
    apply IH; [exact Hall' | |].
    + destruct a as [c g t | | | i ev].
      * destruct Heff as (Hp & _ & Hq). rewrite Hp, Hq. exact Hle.
      * destruct Heff as (Hp & _ & Hq). lia.
      * destruct Heff as (Hp & _ & Hq). lia.
      * destruct Heff as [Hout Hin].
        destruct (Nat.le_gt_cases (List.length (http.pending w)) i) as [Hi | Hi].
        -- rewrite (Hout Hi). exact Hle.
        -- destruct (Hin Hi) as (Hlen & [[Hp _] | [Hp _]]); lia.
    + destruct a as [c g t | | | i ev].
      * destruct Heff as (Hp & Hd & _). rewrite Hp, Hd. exact Hdis.
      * destruct Heff as (Hp & _ & _). lia.
      * destruct Heff as (Hp & _ & _). lia.
      * destruct Heff as [Hout Hin].
        destruct (Nat.le_gt_cases (List.length (http.pending w)) i) as [Hi | Hi].
        -- rewrite (Hout Hi). exact Hdis.
        -- destruct (Hin Hi) as (_ & [[Hp Hd] | [_ Hd]]).
           ++ rewrite Hp, Hd. exact Hdis.
           ++ rewrite Hd. discriminate.
Qed.

Lemma run_shows_waiting_two_in_flight :
  Forall handled (http.pending two_in_flight) /\
  List.length
    (http.pending (run [Settle 1 http.NetworkError; Submit] two_in_flight)) <=
  progress (http.page (run [Settle 1 http.NetworkError; Submit] two_in_flight)).
Proof.
  assert (Hall : Forall handled (http.pending two_in_flight))
    by (repeat constructor).
  split; [exact Hall |].
  destruct (run_shows_waiting [Settle 1 http.NetworkError; Submit]
              two_in_flight Hall) as (_ & Hle & _).
  - cbn. lia.
  - intros _. cbn. lia.
  - exact Hle.
Defined.

(** X13.  When requests are started only while the submit button is
    enabled, a page that begins without a loading indicator never shows
    more than one, and shows none whenever the button is enabled. *)
Theorem gated_run_one_indicator `{Browser} (l : list action) :
  forall w : http.world,
    Forall handled (http.pending w) ->
    progress (http.page w) <= 1 ->
    (disabled (http.page w) = false -> progress (http.page w) = 0) ->
    gated l w = true ->
    progress (http.page (run l w)) <= 1 /\
    (disabled (http.page (run l w)) = false ->
     progress (http.page (run l w)) = 0).
Proof.
  induction l as [|a l IH]; intros w Hall Hone Hidle Hgated; cbn [run].
  - auto.
  - cbn [gated] in Hgated. apply andb_true_iff in Hgated as [Hgate Hrest].
    destruct (act_effect a w Hall) as [Hall' Heff].
    apply IH; [exact Hall' | | | exact Hrest].
    + destruct a as [c g t | | | i ev]; cbn [starts_request] in Hgate.
      * destruct Heff as (Hp & _ & _). lia.
      * apply negb_true_iff in Hgate. destruct Heff as (Hp & _ & _).
        rewrite Hp, (Hidle Hgate). lia.
      * apply negb_true_iff in Hgate. destruct Heff as (Hp & _ & _).
        rewrite Hp, (Hidle Hgate). lia.
      * destruct Heff as [Hout Hin].
        destruct (Nat.le_gt_cases (List.length (http.pending w)) i) as [Hi | Hi].
        -- rewrite (Hout Hi). exact Hone.
        -- destruct (Hin Hi) as (_ & [[Hp _] | [Hp _]]); lia.
    + destruct a as [c g t | | | i ev]; cbn [starts_request] in Hgate.
      * destruct Heff as (Hp & Hd & _). rewrite Hp, Hd. exact Hidle.
      * destruct Heff as (_ & Hd & _). rewrite Hd. discriminate.
      * destruct Heff as (_ & Hd & _). rewrite Hd. discriminate.
      * destruct Heff as [Hout Hin].
        destruct (Nat.le_gt_cases (List.length (http.pending w)) i) as [Hi | Hi].
        -- rewrite (Hout Hi). exact Hidle.
        -- destruct (Hin Hi) as (_ & [[Hp Hd] | [Hp _]]).
           ++ rewrite Hp, Hd. exact Hidle.
           ++ intros _. lia.
Qed.

Lemma gated_run_one_indicator_search :
  gated [DomContentLoaded; Settle 0 (http.Load 200 news_body);
         Edit "us" "science" "rocq"; Submit; Settle 0 (http.Load 500 "")]
        (http.mkWorld blank []) = true /\
  progress
    (http.page
       (run [DomContentLoaded; Settle 0 (http.Load 200 news_body);
             Edit "us" "science" "rocq"; Submit; Settle 0 (http.Load 500 "")]
            (http.mkWorld blank []))) <= 1.
Proof.
  assert (Hgated :
    gated [DomContentLoaded; Settle 0 (http.Load 200 news_body);
           Edit "us" "science" "rocq"; Submit; Settle 0 (http.Load 500 "")]
          (http.mkWorld blank []) = true) by (vm_compute; reflexivity).
  split; [exact Hgated |].
  destruct (gated_run_one_indicator
              [DomContentLoaded; Settle 0 (http.Load 200 news_body);
               Edit "us" "science" "rocq"; Submit; Settle 0 (http.Load 500 "")]
              (http.mkWorld blank [])) as [Hone _].
  - constructor.
  - cbn. lia.
  - reflexivity.
  - exact Hgated.
  - exact Hone.
Defined.
